(** * RAiDER: the Python binding of the fast linear interpolator

    A shallow embedding of [tools/bindings/interpolate/src/module.cpp]: the
    lambda registered as [interpolate] validates the shapes of its arguments,
    allocates the output buffer, picks a number of worker threads, hands
    contiguous chunks of the query batch to the kernels of [interpolate.h] and
    wraps the buffer in a NumPy array.

    [size_t] values are integers in [Z] with the 64-bit wrap-around written
    out; the C++ exceptions and the two effects a caller can observe (the
    allocation and the kernel invocations, direct or through [std::async])
    are threaded through a small state-and-exception monad. *)

From Stdlib Require Import ZArith List String Bool Lia.
From Stdlib Require Import DecimalString.
Import ListNotations.

Local Open Scope string_scope.
Local Open Scope list_scope.
Local Open Scope Z_scope.

(** ** Machine integers *)

Definition size_t_modulus : Z := 2 ^ 64.

(** Conversion to [size_t], and the result of unsigned arithmetic. *)
Definition to_size_t (z : Z) : Z := z mod size_t_modulus.

Definition size_add (a b : Z) : Z := to_size_t (a + b).
Definition size_sub (a b : Z) : Z := to_size_t (a - b).
Definition size_mul (a b : Z) : Z := to_size_t (a * b).
Definition size_div (a b : Z) : Z := a / b.

Definition sizeof_double : Z := 8.

(** What [operator<<] prints for an unsigned integer. *)
Definition show_size (z : Z) : string :=
  NilZero.string_of_uint (N.to_uint (Z.to_N z)).

(** ** Memory: buffers, pointers and slices *)

(** The memory blocks of one call: the data of the NumPy arrays passed in,
    named by a number, and the block obtained from [new double[num_elements]]. *)
Inductive buffer : Type :=
| ArrBuf (id : nat)
| OutBuf.

(** A [double *]: a block and an offset counted in elements. *)
Record ptr : Type := mkptr { base : buffer; off : Z }.

(** [&p[i]] *)
Definition ptr_index (p : ptr) (i : Z) : ptr := mkptr (base p) (off p + i).

(** [slice<double>] of [interpolate.h], built in the source by the braced
    initialiser [{length, pointer}]. *)
Record slice : Type := mkslice { len : Z; data : ptr }.

(** ** The pybind11 arrays

    A [py::array_t<double, py::array::c_style>] is known here by its shape
    and by the block that holds its elements. *)
Record py_array : Type := mkarray { shape : list Z; buf : nat }.

Definition ndim (a : py_array) : Z := Z.of_nat (List.length (shape a)).

(** [a.shape()[k]] *)
Definition shape_at (a : py_array) (k : nat) : Z := nth k (shape a) 0.

(** [a.size()]: the number of elements, the product of the shape. *)
Definition size (a : py_array) : Z := fold_right Z.mul 1 (shape a).

(** [py::buffer_info], as [a.request()] fills it: [size] is the total number
    of entries of the array, not a number of bytes. *)
Record buffer_info : Type := mkinfo {
  info_ptr : ptr;
  info_size : Z;
  info_shape : list Z
}.

Definition request (a : py_array) : buffer_info :=
  mkinfo (mkptr (ArrBuf (buf a)) 0) (size a) (shape a).

Definition info_shape_at (i : buffer_info) (k : nat) : Z := nth k (info_shape i) 0.

(** ** Kernel invocations

    The kernels are declared in [interpolate.h]; a call is recorded with the
    arguments the binding passes. *)
Inductive kernel_call : Type :=
| interpolate_1d (xs : ptr) (nx : Z) (values interp out : ptr) (count : Z)
| interpolate_2d (xs : ptr) (nx : Z) (ys : ptr) (ny : Z)
    (values interp out : ptr) (count : Z)
| interpolate_3d (xs : ptr) (nx : Z) (ys : ptr) (ny : Z) (zs : ptr) (nz : Z)
    (values interp out : ptr) (count : Z)
| interpolate_generic (grid : list slice) (values interp out : slice).

(** The part of the output buffer a call is given: first index and length. *)
Definition out_region (c : kernel_call) : Z * Z :=
  match c with
  | interpolate_1d _ _ _ _ o n => (off o, n)
  | interpolate_2d _ _ _ _ _ _ o n => (off o, n)
  | interpolate_3d _ _ _ _ _ _ _ _ o n => (off o, n)
  | interpolate_generic _ _ _ o => (off (data o), len o)
  end.

(** The part of the query batch a call is given: first flat index. *)
Definition interp_start (c : kernel_call) : Z :=
  match c with
  | interpolate_1d _ _ _ q _ _ => off q
  | interpolate_2d _ _ _ _ _ q _ _ => off q
  | interpolate_3d _ _ _ _ _ _ _ q _ _ => off q
  | interpolate_generic _ _ q _ => off (data q)
  end.

(** The number of coordinates of a query point, for the kernel called. *)
Definition call_dims (c : kernel_call) : Z :=
  match c with
  | interpolate_1d _ _ _ _ _ _ => 1
  | interpolate_2d _ _ _ _ _ _ _ _ => 2
  | interpolate_3d _ _ _ _ _ _ _ _ _ _ => 3
  | interpolate_generic g _ _ _ => Z.of_nat (List.length g)
  end.

Definition is_fixed (c : kernel_call) : bool :=
  match c with
  | interpolate_generic _ _ _ _ => false
  | _ => true
  end.

(** ** Exceptions, events and the state of a call *)

Inductive exn : Type :=
| type_error (msg : string)
| kernel_error (what : string).

Inductive event : Type :=
| EvAlloc (n : Z)                (* new double[n] *)
| EvDirect (c : kernel_call)     (* a kernel called in the calling thread *)
| EvAsync (c : kernel_call).     (* a kernel started through std::async *)

Section Binding.

(** The type of the array elements; the binding only moves them around. *)
Context {double : Type}.

(** The contents of the output block: [None] is a cell that was never
    written ([new double[n]] does not initialise). *)
Definition out_mem : Type := Z -> option double.

Record state : Type := mkstate { trace : list event; out : out_mem }.

Definition initial : state := mkstate [] (fun _ => None).

(** What running a kernel does: it updates the output block and either
    returns or throws. *)
Definition kernel_sem : Type := kernel_call -> out_mem -> out_mem * option exn.

(** ** The monad of the binding: state and exceptions *)

Definition M (A : Type) : Type := state -> state * (exn + A).

Definition ret {A} (a : A) : M A := fun st => (st, inr a).

Definition bind {A B} (m : M A) (k : A -> M B) : M B :=
  fun st =>
    match m st with
    | (st', inl e) => (st', inl e)
    | (st', inr a) => k a st'
    end.

Definition throw {A} (e : exn) : M A := fun st => (st, inl e).

Notation "x <- m ;; k" := (bind m (fun x => k))
  (at level 61, m at next level, right associativity).
Notation "m ;; k" := (bind m (fun _ => k))
  (at level 61, right associativity).

Definition when (b : bool) (m : M unit) : M unit := if b then m else ret tt.

(** A range-based [for] over a vector. *)
Fixpoint for_each {A} (l : list A) (body : A -> M unit) : M unit :=
  match l with
  | [] => ret tt
  | a :: l' => body a ;; for_each l' body
  end.

(** [for (size_t i = 0; i < n; i++)], collecting what each round pushes. *)
Definition indices (n : Z) : list Z := map Z.of_nat (seq 0 (Z.to_nat n)).

Fixpoint collect {A B} (l : list A) (body : A -> M B) : M (list B) :=
  match l with
  | [] => ret []
  | a :: l' => b <- body a ;; bs <- collect l' body ;; ret (b :: bs)
  end.

(** ** Threads

    [K] is what the kernels of [interpolate.h] do when they run. *)
Variable K : kernel_sem.

(** A kernel called in the calling thread: its exception, if any, is the
    caller's. *)
Definition call_kernel (c : kernel_call) : M unit :=
  fun st =>
    let run := K c (out st) in
    (mkstate (trace st ++ [EvDirect c]) (fst run),
     match snd run with
     | None => inr tt
     | Some e => inl e
     end).

(** [std::future<void>]: the shared state holds the exception the task ended
    with, if it ended with one, until somebody calls [get]. *)
Record future : Type := mkfuture { stored : option exn }.

(** [std::async(&kernel, args...)]. The tasks of one call write to the parts
    of the output block they are given and read everything else, so the
    model runs each task when it is started. An exception leaves the task
    through its future only. *)
Definition std_async (c : kernel_call) : M future :=
  fun st =>
    let run := K c (out st) in
    (mkstate (trace st ++ [EvAsync c]) (fst run), inr (mkfuture (snd run))).

(** The statement [std::move(future);]: a cast to an rvalue reference whose
    result is dropped. Nothing is moved and nothing is read. *)
Definition std_move (f : future) : M unit := ret tt.

(** [new double[n]] *)
Definition new_double (n : Z) : M ptr :=
  fun st => (mkstate (trace st ++ [EvAlloc n]) (fun _ => None), inr (mkptr OutBuf 0)).

(** ** The dispatch arithmetic *)

Definition desired_threads (num_elements : Z) : Z :=
  if num_elements <? 10000 then 1
  else if num_elements <? 4000000 then 2
  else if num_elements <? 160000000 then 4
  else 8.

Definition num_threads (num_elements max_threads : Z) : Z :=
  let t := Z.min (desired_threads num_elements) max_threads in
  if t =? 0 then 1 else t.

(** [index + stride < num_elements ? stride : num_elements - index] *)
Definition chunk_count (index stride num_elements : Z) : Z :=
  if size_add index stride <? num_elements then stride
  else size_sub num_elements index.

(** ** The result *)

(** The capsule whose destructor runs [delete[]] on the block. *)
Inductive capsule : Type := free_when_done (p : ptr).

(** [py::array_t<double>(shape, strides, data, base)] *)
Record py_result : Type := mkresult {
  res_shape : list Z;
  res_strides : list Z;
  res_data : ptr;
  res_base : capsule
}.

Definition no_array : py_array := mkarray [] 0.

(** ** The binding

    The body of the lambda is given in three parts, in the order of the
    source: the checks of lines 24 to 53, the branch on [num_dims] of lines
    79 to 231, and the lambda itself, which allocates between the two and
    wraps the buffer at the end. *)

Definition check_arguments (points : list py_array)
    (values interp_points : py_array) : M unit :=
  let num_dims := Z.of_nat (List.length points) in
  when ((ndim values =? 0) || (ndim interp_points =? 0))
    (throw (type_error "Only arrays are supported, not scalar values!")) ;;
  for_each points (fun arr =>
    when (negb (ndim arr =? 1))
      (throw (type_error "'points' must be a list of 1D arrays!"))) ;;
  when (negb (num_dims =? ndim values))
    (throw (type_error
       ("Dimension mismatch! Grid is " ++ show_size num_dims
        ++ "D but values are " ++ show_size (ndim values) ++ "D!"))) ;;
  when (negb (ndim interp_points =? 2))
    (throw (type_error "'interp_points' should have shape (N, ndim).")) ;;
  let interp_dims := to_size_t (shape_at interp_points 1) in
  when (negb (num_dims =? interp_dims))
    (throw (type_error
       ("Dimension mismatch! Grid is " ++ show_size num_dims
        ++ "D but interpolation points are " ++ show_size interp_dims ++ "D!"))).

Definition run_kernels (points : list py_array) (values interp_points : py_array)
    (num_elements threads : Z) (out_ptr : ptr) : M unit :=
  let num_dims := Z.of_nat (List.length points) in
  let values_info := request values in
  let interp_points_info := request interp_points in
  let stride := size_div num_elements threads in
  let values_ptr := info_ptr values_info in
  let interp_points_ptr := info_ptr interp_points_info in
  if num_dims =? 1 then
    let xs_info := request (nth 0 points no_array) in
    let xs_ptr := info_ptr xs_info in
    if threads =? 1 then
      call_kernel
        (interpolate_1d xs_ptr (size (nth 0 points no_array)) values_ptr
           interp_points_ptr out_ptr num_elements)
    else
      tasks <- collect (indices threads) (fun i =>
        let index := size_mul i stride in
        std_async
          (interpolate_1d xs_ptr (info_shape_at xs_info 0) values_ptr
             (ptr_index interp_points_ptr index) (ptr_index out_ptr index)
             (chunk_count index stride num_elements))) ;;
      for_each tasks std_move
  else if num_dims =? 2 then
    let xs_info := request (nth 0 points no_array) in
    let ys_info := request (nth 1 points no_array) in
    let xs_ptr := info_ptr xs_info in
    let ys_ptr := info_ptr ys_info in
    if threads =? 1 then
      call_kernel
        (interpolate_2d xs_ptr (size (nth 0 points no_array))
           ys_ptr (size (nth 1 points no_array))
           values_ptr interp_points_ptr out_ptr num_elements)
    else
      tasks <- collect (indices threads) (fun i =>
        let index := size_mul i stride in
        std_async
          (interpolate_2d xs_ptr (size (nth 0 points no_array))
             ys_ptr (size (nth 1 points no_array))
             values_ptr
             (ptr_index interp_points_ptr (size_mul index num_dims))
             (ptr_index out_ptr index)
             (chunk_count index stride num_elements))) ;;
      for_each tasks std_move
  else if num_dims =? 3 then
    let xs_info := request (nth 0 points no_array) in
    let ys_info := request (nth 1 points no_array) in
    let zs_info := request (nth 2 points no_array) in
    let xs_ptr := info_ptr xs_info in
    let ys_ptr := info_ptr ys_info in
    let zs_ptr := info_ptr zs_info in
    if threads =? 1 then
      call_kernel
        (interpolate_3d xs_ptr (size (nth 0 points no_array))
           ys_ptr (size (nth 1 points no_array))
           zs_ptr (size (nth 2 points no_array))
           values_ptr interp_points_ptr out_ptr num_elements)
    else
      tasks <- collect (indices threads) (fun i =>
        let index := size_mul i stride in
        std_async
          (interpolate_3d xs_ptr (size (nth 0 points no_array))
             ys_ptr (size (nth 1 points no_array))
             zs_ptr (size (nth 2 points no_array))
             values_ptr
             (ptr_index interp_points_ptr (size_mul index num_dims))
             (ptr_index out_ptr index)
             (chunk_count index stride num_elements))) ;;
      for_each tasks std_move
  else
    let grid := map (fun axis =>
      let info := request axis in
      mkslice (to_size_t (info_shape_at info 0)) (info_ptr info)) points in
    let values_slice :=
      mkslice (size_div (to_size_t (info_size values_info)) sizeof_double)
        values_ptr in
    let interpolation_points_slice :=
      mkslice (size_div (to_size_t (info_size values_info)) sizeof_double)
        interp_points_ptr in
    let out_slice := mkslice num_elements out_ptr in
    call_kernel
      (interpolate_generic grid values_slice interpolation_points_slice
         out_slice).

Definition interpolate (points : list py_array) (values interp_points : py_array)
    (max_threads : Z) : M py_result :=
  check_arguments points values interp_points ;;
  let num_elements := to_size_t (shape_at interp_points 0) in
  out_ptr <- new_double num_elements ;;
  let threads := num_threads num_elements max_threads in
  run_kernels points values interp_points num_elements threads out_ptr ;;
  ret (mkresult [num_elements] [sizeof_double] out_ptr (free_when_done out_ptr)).

(** The keyword argument [max_threads] has the default [8]. *)
Definition default_max_threads : Z := 8.

Definition interpolate_py (points : list py_array) (values interp_points : py_array)
    (max_threads : option Z) : M py_result :=
  interpolate points values interp_points
    (match max_threads with Some m => m | None => default_max_threads end).

End Binding.

Notation "x <- m ;; k" := (bind m (fun x => k))
  (at level 61, m at next level, right associativity).
Notation "m ;; k" := (bind m (fun _ => k))
  (at level 61, right associativity).

(** ** The kernels *)

(** Modelled from the spec: the kernels [interpolate_1d], [interpolate_2d] and
    [interpolate_3d] are defined in [interpolate.h] and its implementation,
    which are not part of the binding. Each takes the axes, the sample
    tensor, a contiguous slice of the query batch and the matching slice of
    the output buffer, and writes one interpolated value per query point into
    the output slice. [pv q] stands for the value interpolated at the query
    point whose coordinates start at flat index [q] of the query batch. *)
Definition write_points {double : Type} (pv : Z -> double) (dims : Z)
    (interp o : ptr) (count : Z) (m : @out_mem double) : out_mem :=
  fun j =>
    if (off o <=? j) && (j <? off o + count)
    then Some (pv (off interp + (j - off o) * dims))
    else m j.

(** Modelled from the spec: the kernels never throw on inputs within their
    contract. The effect of the generic kernel [interpolate] on the output
    block is the parameter [nd]. *)
Definition kernel_model {double : Type} (pv : Z -> double)
    (nd : list slice -> slice -> slice -> slice -> @out_mem double -> out_mem)
    : kernel_sem :=
  fun c m =>
    match c with
    | interpolate_1d _ _ _ q o n => (write_points pv 1 q o n m, None)
    | interpolate_2d _ _ _ _ _ q o n => (write_points pv 2 q o n m, None)
    | interpolate_3d _ _ _ _ _ _ _ q o n => (write_points pv 3 q o n m, None)
    | interpolate_generic g v q o => (nd g v q o m, None)
    end.

(** A kernel that fails: every run ends with an exception. *)
Definition kernel_failing {double : Type} (what : string) : @kernel_sem double :=
  fun _ m => (m, Some (kernel_error what)).

(** ** Vocabulary of the properties *)

(** The output block after the tasks [mk i] have run, for [i] along [l]. *)
Definition run_tasks {double : Type} (K : @kernel_sem double)
    (mk : Z -> kernel_call) (l : list Z) (m : out_mem) : out_mem :=
  fold_left (fun m' i => fst (K (mk i) m')) l m.

(** A value a [size_t] can hold. *)
Definition is_size_t (z : Z) : Prop := 0 <= z < size_t_modulus.

(** The inputs that pass every check, as one boolean. *)
Definition well_shaped (points : list py_array)
    (values interp_points : py_array) : bool :=
  negb (ndim values =? 0) && negb (ndim interp_points =? 0)
  && forallb (fun arr => ndim arr =? 1) points
  && (Z.of_nat (List.length points) =? ndim values)
  && (ndim interp_points =? 2)
  && (Z.of_nat (List.length points) =? to_size_t (shape_at interp_points 1)).

(** The shapes the checks are meant to refuse, condition by condition. *)
Definition ill_shaped (points : list py_array)
    (values interp_points : py_array) : bool :=
  negb (Z.of_nat (List.length points) =? ndim values)
  || negb (ndim interp_points =? 2)
  || negb (shape_at interp_points 1 =? Z.of_nat (List.length points))
  || existsb (fun arr => negb (ndim arr =? 1)) points
  || (ndim values =? 0)
  || (ndim interp_points =? 0).

(** The extents of a NumPy array are non-negative [ssize_t] values. *)
Definition shape_ok (a : py_array) : Prop :=
  Forall (fun d => 0 <= d < 2 ^ 63) (shape a).

(** Chunk [i] as the dispatch loops compute it: first index and length. *)
Definition chunk (num_elements threads i : Z) : Z * Z :=
  let stride := size_div num_elements threads in
  (size_mul i stride, chunk_count (size_mul i stride) stride num_elements).

Definition async_calls (tr : list event) : list kernel_call :=
  flat_map (fun ev => match ev with EvAsync c => [c] | _ => [] end) tr.

Definition direct_calls (tr : list event) : list kernel_call :=
  flat_map (fun ev => match ev with EvDirect c => [c] | _ => [] end) tr.

(** Two regions, each a first index and a length, share no index. *)
Definition disjoint (r1 r2 : Z * Z) : Prop :=
  fst r1 + snd r1 <= fst r2 \/ fst r2 + snd r2 <= fst r1.

(** The array a call hands back over a block of [n] cells. *)
Definition returned_array (n : Z) : py_result :=
  mkresult [n] [sizeof_double] (mkptr OutBuf 0) (free_when_done (mkptr OutBuf 0)).

(** The slices the generic branch builds, as the source writes them. *)
Definition generic_call (points : list py_array) (values interp_points : py_array)
    (num_elements : Z) : kernel_call :=
  interpolate_generic
    (map (fun axis => mkslice (to_size_t (shape_at axis 0)) (mkptr (ArrBuf (buf axis)) 0))
       points)
    (mkslice (to_size_t (size values) / sizeof_double) (mkptr (ArrBuf (buf values)) 0))
    (mkslice (to_size_t (size values) / sizeof_double)
       (mkptr (ArrBuf (buf interp_points)) 0))
    (mkslice num_elements (mkptr OutBuf 0)).

(** Index [j] lies in the region of the output a call is given. *)
Definition in_region (c : kernel_call) (j : Z) : Prop :=
  fst (out_region c) <= j < fst (out_region c) + snd (out_region c).

Definition is_alloc (ev : event) : bool :=
  match ev with EvAlloc _ => true | _ => false end.

(** ** Concrete calls *)

(** One axis of three points with its three values. *)
Definition one_axis : list py_array := [mkarray [3] 1%nat].
Definition one_axis_values : py_array := mkarray [3] 2%nat.

(** Four axes of two points each with their sixteen values. *)
Definition four_axes : list py_array :=
  [mkarray [2] 1%nat; mkarray [2] 2%nat; mkarray [2] 3%nat; mkarray [2] 4%nat].
Definition four_axes_values : py_array := mkarray [2; 2; 2; 2] 5%nat.

(** A query batch of [n] points of [d] coordinates. *)
Definition query_batch (n d : Z) : py_array := mkarray [n; d] 9%nat.

(** Kernels on integers standing for the doubles: the value of a query
    point is the index where its coordinates start. *)
Definition kernel_index : @kernel_sem Z :=
  kernel_model (fun q => q) (fun _ _ _ _ m => m).

Definition first_half : kernel_call :=
  interpolate_1d (mkptr (ArrBuf 1) 0) 3 (mkptr (ArrBuf 2) 0)
    (mkptr (ArrBuf 9) 0) (mkptr OutBuf 0) 5000.

Definition second_half : kernel_call :=
  interpolate_1d (mkptr (ArrBuf 1) 0) 3 (mkptr (ArrBuf 2) 0)
    (mkptr (ArrBuf 9) 5000) (mkptr OutBuf 5000) 5000.

(** Two axes of three points each with their nine values. *)
Definition two_axes : list py_array := [mkarray [3] 1%nat; mkarray [3] 2%nat].
Definition two_axes_values : py_array := mkarray [3; 3] 5%nat.

Definition second_half_2d : kernel_call :=
  interpolate_2d (mkptr (ArrBuf 1) 0) 3 (mkptr (ArrBuf 2) 0) 3 (mkptr (ArrBuf 5) 0)
    (mkptr (ArrBuf 9) 10000) (mkptr OutBuf 5000) 5000.

(** * Properties *)

(** ** Unsigned arithmetic without overflow *)

Lemma to_size_t_small (z : Z) : is_size_t z -> to_size_t z = z.
Proof. intros H. unfold to_size_t. apply Z.mod_small. exact H. Qed.

Lemma to_size_t_range (z : Z) : is_size_t (to_size_t z).
Proof.
  unfold is_size_t, to_size_t. apply Z.mod_pos_bound.
  unfold size_t_modulus. lia.
Qed.

Lemma to_size_t_idem (z : Z) : to_size_t (to_size_t z) = to_size_t z.
Proof. apply to_size_t_small, to_size_t_range. Qed.

Lemma stride_times_threads (n w : Z) :
  0 <= n -> 0 < w -> 0 <= n / w /\ w * (n / w) <= n.
Proof.
  intros Hn Hw. split.
  - apply Z.div_pos; lia.
  - apply Z.mul_div_le. lia.
Qed.

(** The start of chunk [i] is [i * stride], with no wrap-around. *)
Lemma chunk_index_exact (n w i : Z) :
  is_size_t n -> 0 < w -> 0 <= i < w ->
  size_mul i (size_div n w) = i * (n / w)
  /\ 0 <= i * (n / w) /\ (i + 1) * (n / w) <= n.
Proof.
  intros Hn Hw Hi. unfold size_mul, size_div.
  destruct (stride_times_threads n w) as [Hs Hle]; [apply Hn | lia |].
  assert (Hb : (i + 1) * (n / w) <= w * (n / w)) by nia.
  assert (H0 : 0 <= i * (n / w)) by nia.
  split; [| split; lia].
  apply to_size_t_small. unfold is_size_t in *. nia.
Qed.

(** The length the binding computes for a chunk is the stride, for every
    chunk: [index + stride < num_elements] fails only when the chunk ends
    exactly at [num_elements], where [num_elements - index] is the stride
    again. *)
Lemma chunk_count_is_stride (n w i : Z) :
  is_size_t n -> 0 < w -> 0 <= i < w ->
  chunk_count (size_mul i (size_div n w)) (size_div n w) n = n / w.
Proof.
  intros Hn Hw Hi.
  destruct (chunk_index_exact n w i Hn Hw Hi) as (Hidx & H0 & Hend).
  destruct (stride_times_threads n w) as [Hs _]; [apply Hn | lia |].
  rewrite Hidx. unfold chunk_count, size_add, size_sub, size_div.
  assert (Hsum : i * (n / w) + n / w = (i + 1) * (n / w)) by ring.
  rewrite (to_size_t_small (i * (n / w) + n / w))
    by (unfold is_size_t in *; lia).
  destruct (Z.ltb_spec (i * (n / w) + n / w) n) as [Hlt | Hge].
  - reflexivity.
  - assert (Heq : n - i * (n / w) = n / w) by lia.
    rewrite Heq. apply to_size_t_small. unfold is_size_t in *. 
    assert (n / w <= n) by nia. lia.
Qed.

Lemma desired_threads_range (n : Z) : 1 <= desired_threads n <= 8.
Proof.
  unfold desired_threads.
  destruct (n <? 10000); [lia |].
  destruct (n <? 4000000); [lia |].
  destruct (n <? 160000000); lia.
Qed.

Lemma num_threads_range (n mt : Z) : 0 <= mt -> 1 <= num_threads n mt <= 8.
Proof.
  intros Hmt. unfold num_threads.
  pose proof (desired_threads_range n) as Hd.
  destruct (Z.eqb_spec (Z.min (desired_threads n) mt) 0); lia.
Qed.

(** ** The monad *)

Section Traces.

Context {double : Type}.
Variable K : @kernel_sem double.

Lemma for_each_move (tasks : list future) (st : @state double) :
  for_each tasks std_move st = (st, inr tt).
Proof.
  induction tasks as [| f tasks IH]; simpl.
  - reflexivity.
  - unfold bind. simpl. exact IH.
Qed.

(** The exceptions stored in the futures do not reach the caller: starting
    the tasks and running the loop of [std::move] statements returns
    normally, whatever the kernels did. *)
Lemma collect_async_trace (mk : Z -> kernel_call) (l : list Z) (st : @state double) :
  exists fs,
    collect l (fun i => std_async K (mk i)) st
    = (mkstate (trace st ++ map (fun i => EvAsync (mk i)) l)
         (run_tasks K mk l (out st)),
       inr fs).
Proof.
  revert st. induction l as [| i l IH]; intros st; simpl.
  - exists []. unfold ret. rewrite app_nil_r. destruct st; reflexivity.
  - unfold bind at 1. unfold std_async at 1. cbv zeta.
    destruct (IH (mkstate (trace st ++ [EvAsync (mk i)]) (fst (K (mk i) (out st)))))
      as (fs & E).
    unfold bind at 1. rewrite E. simpl.
    exists (mkfuture (snd (K (mk i) (out st))) :: fs). unfold ret.
    rewrite <- app_assoc. reflexivity.
Qed.

Lemma dispatch_returns (mk : Z -> kernel_call) (l : list Z) (st : @state double) :
  (tasks <- collect l (fun i => std_async K (mk i)) ;; for_each tasks std_move) st
  = (mkstate (trace st ++ map (fun i => EvAsync (mk i)) l)
       (run_tasks K mk l (out st)),
     inr tt).
Proof.
  destruct (collect_async_trace mk l st) as (fs & E).
  unfold bind. rewrite E. apply for_each_move.
Qed.

End Traces.

(** ** The checks *)

Section Checks.

Context {double : Type}.

Lemma for_each_axis_check (points : list py_array) (e : exn) (st : @state double) :
  for_each points (fun arr => when (negb (ndim arr =? 1)) (throw e)) st
  = (st, if forallb (fun arr => ndim arr =? 1) points then inr tt else inl e).
Proof.
  induction points as [| arr points IH]; simpl.
  - reflexivity.
  - unfold bind. destruct (ndim arr =? 1); simpl.
    + exact IH.
    + reflexivity.
Qed.

Lemma check_arguments_accepts (points : list py_array)
    (values interp_points : py_array) (st : @state double) :
  well_shaped points values interp_points = true ->
  check_arguments points values interp_points st = (st, inr tt).
Proof.
  unfold well_shaped. intros H.
  repeat (apply andb_prop in H; destruct H as [H ?]).
  unfold check_arguments, bind.
  destruct (ndim values =? 0); [discriminate |].
  destruct (ndim interp_points =? 0); [discriminate |]. simpl.
  rewrite for_each_axis_check.
  destruct (forallb _ points); [| discriminate].
  destruct (Z.of_nat (List.length points) =? ndim values); [| discriminate].
  destruct (ndim interp_points =? 2); [| discriminate].
  destruct (Z.of_nat (List.length points) =? to_size_t _); [| discriminate].
  reflexivity.
Qed.

Lemma check_arguments_rejects (points : list py_array)
    (values interp_points : py_array) (st : @state double) :
  well_shaped points values interp_points = false ->
  exists msg,
    check_arguments points values interp_points st = (st, inl (type_error msg))
    /\ msg <> "".
Proof.
  unfold well_shaped, check_arguments, bind. intros H.
  destruct (ndim values =? 0); simpl.
  { eexists; split; [reflexivity | discriminate]. }
  destruct (ndim interp_points =? 0); simpl.
  { eexists; split; [reflexivity | discriminate]. }
  rewrite for_each_axis_check. simpl in H.
  destruct (forallb _ points); simpl in *.
  2: { eexists; split; [reflexivity | discriminate]. }
  destruct (Z.of_nat (List.length points) =? ndim values); simpl in *.
  2: { eexists; split; [reflexivity | discriminate]. }
  destruct (ndim interp_points =? 2); simpl in *.
  2: { eexists; split; [reflexivity | discriminate]. }
  destruct (Z.of_nat (List.length points) =? to_size_t _); simpl in *.
  - discriminate.
  - eexists; split; [reflexivity | discriminate].
Qed.

(** A call that is rejected leaves no trace: no allocation, no kernel. *)
Lemma interpolate_rejects (K : kernel_sem) (points : list py_array)
    (values interp_points : py_array) (max_threads : Z) (st : @state double) :
  well_shaped points values interp_points = false ->
  exists msg,
    interpolate K points values interp_points max_threads st
    = (st, inl (type_error msg))
    /\ msg <> "".
Proof.
  intros H.
  destruct (check_arguments_rejects points values interp_points st H)
    as (msg & E & Hmsg).
  exists msg. split; [| exact Hmsg].
  unfold interpolate, bind. rewrite E. reflexivity.
Qed.

(** A call that is accepted allocates [num_elements] cells and goes on to
    the kernels. *)
Lemma interpolate_accepts (K : kernel_sem) (points : list py_array)
    (values interp_points : py_array) (max_threads : Z) (st : @state double) :
  well_shaped points values interp_points = true ->
  let num_elements := to_size_t (shape_at interp_points 0) in
  let out_ptr := mkptr OutBuf 0 in
  interpolate K points values interp_points max_threads st
  = (run_kernels K points values interp_points num_elements
       (num_threads num_elements max_threads) out_ptr ;;
     ret (mkresult [num_elements] [sizeof_double] out_ptr (free_when_done out_ptr)))
      (mkstate (trace st ++ [EvAlloc num_elements]) (fun _ => None)).
Proof.
  intros H. simpl.
  unfold interpolate. unfold bind at 1.
  rewrite (check_arguments_accepts _ _ _ st H).
  reflexivity.
Qed.

End Checks.

(** ** The kernels a call runs *)

Lemma async_calls_map (mk : Z -> kernel_call) (l : list Z) :
  async_calls (map (fun i => EvAsync (mk i)) l) = map mk l.
Proof.
  induction l as [| i l IH]; simpl; [reflexivity | now rewrite <- IH].
Qed.

Lemma nth_error_indices (w : Z) (i : nat) (z : Z) :
  nth_error (indices w) i = Some z -> z = Z.of_nat i /\ 0 <= z < w.
Proof.
  unfold indices. intros H.
  rewrite nth_error_map in H.
  destruct (nth_error (seq 0 (Z.to_nat w)) i) as [k |] eqn:E; [| discriminate].
  injection H as <-.
  assert (Hlt : (i < List.length (seq 0 (Z.to_nat w)))%nat).
  { apply nth_error_Some. rewrite E. discriminate. }
  rewrite length_seq in Hlt.
  rewrite nth_error_nth' with (d := 0%nat) in E
    by (rewrite length_seq; exact Hlt).
  rewrite seq_nth in E by exact Hlt.
  injection E as <-. simpl. lia.
Qed.

Section Dispatch.

Context {double : Type}.
Variable K : @kernel_sem double.

Lemma bind_ret_state {A B} (m : M A) (b : B) (st : @state double) :
  fst ((m ;; ret b) st) = fst (m st).
Proof.
  unfold bind. destruct (m st) as [st' [e | a]]; reflexivity.
Qed.

(** With one thread, or with more than three axes, one kernel runs in the
    calling thread, on the whole output buffer. *)
Lemma run_kernels_direct (points : list py_array) (values interp_points : py_array)
    (n w : Z) (out_ptr : ptr) (st : @state double) :
  w = 1 \/ ~ (1 <= Z.of_nat (List.length points) <= 3) ->
  exists c,
    run_kernels K points values interp_points n w out_ptr st = call_kernel K c st
    /\ out_region c = (off out_ptr, n)
    /\ interp_start c = 0
    /\ (1 <= Z.of_nat (List.length points) <= 3 ->
        is_fixed c = true /\ call_dims c = Z.of_nat (List.length points)).
Proof.
  intros H. unfold run_kernels.
  destruct (Z.eqb_spec (Z.of_nat (List.length points)) 1) as [E1 | N1].
  { destruct (Z.eqb_spec w 1) as [-> | Nw]; [| lia].
    eexists; repeat split. symmetry; exact E1. }
  destruct (Z.eqb_spec (Z.of_nat (List.length points)) 2) as [E2 | N2].
  { destruct (Z.eqb_spec w 1) as [-> | Nw]; [| lia].
    eexists; repeat split. symmetry; exact E2. }
  destruct (Z.eqb_spec (Z.of_nat (List.length points)) 3) as [E3 | N3].
  { destruct (Z.eqb_spec w 1) as [-> | Nw]; [| lia].
    eexists; repeat split. symmetry; exact E3. }
  eexists; repeat split; lia.
Qed.

(** With several threads and at most three axes, one task per thread is
    started on the chunk of its index; the call then goes on normally. *)
Lemma run_kernels_async (points : list py_array) (values interp_points : py_array)
    (n w : Z) (out_ptr : ptr) (st : @state double) :
  w <> 1 -> 1 <= Z.of_nat (List.length points) <= 3 ->
  exists mk,
    run_kernels K points values interp_points n w out_ptr st
    = (mkstate (trace st ++ map (fun i => EvAsync (mk i)) (indices w))
         (run_tasks K mk (indices w) (out st)),
       inr tt)
    /\ forall i,
         out_region (mk i)
         = (off out_ptr + fst (chunk n w i), snd (chunk n w i))
         /\ is_fixed (mk i) = true
         /\ call_dims (mk i) = Z.of_nat (List.length points)
         /\ interp_start (mk i)
            = to_size_t (fst (chunk n w i) * Z.of_nat (List.length points)).
Proof.
  intros Hw HD. unfold run_kernels.
  destruct (Z.eqb_spec w 1) as [E | _]; [contradiction |].
  destruct (Z.eqb_spec (Z.of_nat (List.length points)) 1) as [E1 | N1].
  { match goal with
    | |- context [collect _ (fun i => std_async K (@?f i))] => exists f
    end.
    split; [apply dispatch_returns |].
    intros i. rewrite E1, Z.mul_1_r. unfold chunk, size_mul. cbn [fst].
    rewrite to_size_t_idem. repeat split. }
  destruct (Z.eqb_spec (Z.of_nat (List.length points)) 2) as [E2 | N2].
  { match goal with
    | |- context [collect _ (fun i => std_async K (@?f i))] => exists f
    end.
    split; [apply dispatch_returns |].
    intros i. rewrite E2. repeat split. }
  destruct (Z.eqb_spec (Z.of_nat (List.length points)) 3) as [E3 | N3]; [| lia].
  match goal with
  | |- context [collect _ (fun i => std_async K (@?f i))] => exists f
  end.
  split; [apply dispatch_returns |].
  intros i. rewrite E3. repeat split.
Qed.

End Dispatch.

(** ** The number of workers *)

(** C3. For every [num_elements] and every [max_threads] (8 when the
    argument is omitted), the number of workers is the smaller of the desired
    number and [max_threads], replaced by 1 when that is 0; the desired number
    is 1 below 10000 elements, 2 below 4000000, 4 below 160000000 and 8 from
    there on. *)
Theorem effective_workers (num_elements : Z) (max_threads : option Z) :
  let mt := match max_threads with Some m => m | None => 8 end in
  let desired := desired_threads num_elements in
  ((num_elements < 10000 /\ desired = 1)
   \/ (10000 <= num_elements < 4000000 /\ desired = 2)
   \/ (4000000 <= num_elements < 160000000 /\ desired = 4)
   \/ (160000000 <= num_elements /\ desired = 8))
  /\ num_threads num_elements mt
     = (if Z.min desired mt =? 0 then 1 else Z.min desired mt)
  /\ forall (double : Type) (K : @kernel_sem double) points values interp_points,
       interpolate_py K points values interp_points max_threads
       = interpolate K points values interp_points mt.
Proof.
  cbv zeta. split; [| split].
  - unfold desired_threads.
    destruct (Z.ltb_spec num_elements 10000); [left; lia |].
    destruct (Z.ltb_spec num_elements 4000000); [right; left; lia |].
    destruct (Z.ltb_spec num_elements 160000000); [right; right; left; lia |].
    right; right; right; lia.
  - reflexivity.
  - intros. destruct max_threads; reflexivity.
Qed.

(** ** Rejected calls *)

Lemma shape_at_size_t (a : py_array) (k : nat) :
  shape_ok a -> to_size_t (shape_at a k) = shape_at a k.
Proof.
  intros H. apply to_size_t_small. unfold shape_at, is_size_t, size_t_modulus.
  destruct (nth_in_or_default k (shape a) 0) as [Hin | ->]; [| lia].
  unfold shape_ok in H. rewrite Forall_forall in H.
  specialize (H _ Hin). lia.
Qed.

Lemma existsb_negb_forallb {A} (f : A -> bool) (l : list A) :
  existsb (fun a => negb (f a)) l = negb (forallb f l).
Proof.
  induction l as [| a l IH]; simpl; [reflexivity |].
  rewrite IH. destruct (f a); reflexivity.
Qed.

Lemma well_shaped_not_ill_shaped (points : list py_array)
    (values interp_points : py_array) :
  shape_ok interp_points ->
  well_shaped points values interp_points
  = negb (ill_shaped points values interp_points).
Proof.
  intros Hok. unfold well_shaped, ill_shaped.
  rewrite (shape_at_size_t _ 1 Hok), existsb_negb_forallb.
  rewrite (Z.eqb_sym (shape_at interp_points 1)).
  destruct (ndim values =? 0), (ndim interp_points =? 0),
    (forallb _ points), (_ =? ndim values), (ndim interp_points =? 2),
    (_ =? shape_at interp_points 1); reflexivity.
Qed.

(** C6. When the number of axes differs from the rank of the values, or the
    query batch is not 2-dimensional, or its number of columns differs from
    the number of axes, or an axis is not 1-dimensional, or the values or the
    query batch are scalars, the call raises a type error with a message, and
    the state is the one it started from: nothing was allocated and no kernel
    ran. *)
Theorem ill_shaped_is_rejected {double : Type} (K : @kernel_sem double)
    (points : list py_array) (values interp_points : py_array)
    (max_threads : Z) (st : state) :
  shape_ok interp_points ->
  ill_shaped points values interp_points = true ->
  exists msg,
    interpolate K points values interp_points max_threads st
    = (st, inl (type_error msg))
    /\ msg <> "".
Proof.
  intros Hok Hill. apply interpolate_rejects.
  rewrite (well_shaped_not_ill_shaped _ _ _ Hok), Hill. reflexivity.
Qed.

(** C10. With no axes the call always fails with a type error and leaves
    the state as it was: scalars are refused first, and the rank of any other
    values array is at least 1, which is not the number of axes. *)
Theorem no_axes_is_rejected {double : Type} (K : @kernel_sem double)
    (values interp_points : py_array) (max_threads : Z) (st : state) :
  interpolate K [] values interp_points max_threads st
  = (st,
     inl (type_error
            (if (ndim values =? 0) || (ndim interp_points =? 0)
             then "Only arrays are supported, not scalar values!"
             else "Dimension mismatch! Grid is 0D but values are "
                  ++ show_size (ndim values) ++ "D!"))).
Proof.
  unfold interpolate, check_arguments, bind.
  destruct (Z.eqb_spec (ndim values) 0) as [E | N]; [reflexivity |].
  destruct (ndim interp_points =? 0); [reflexivity |].
  cbn [orb when for_each ret List.length Z.of_nat].
  destruct (Z.eqb_spec 0 (ndim values)) as [E | _]; [congruence |].
  reflexivity.
Qed.

(** ** The regions of the workers *)

Lemma nth_error_nil_some {A} (i : nat) (a : A) : nth_error [] i = Some a -> False.
Proof. destruct i; discriminate. Qed.

(** What the dispatch gives to worker [i] of [w]: [stride] cells from
    [i * stride] on, inside the buffer. *)
Lemma chunk_exact (n w i : Z) :
  is_size_t n -> 0 < w -> 0 <= i < w ->
  chunk n w i = (i * (n / w), n / w) /\ 0 <= i * (n / w) /\ (i + 1) * (n / w) <= n.
Proof.
  intros Hn Hw Hi. unfold chunk.
  rewrite (chunk_count_is_stride n w i Hn Hw Hi).
  destruct (chunk_index_exact n w i Hn Hw Hi) as (-> & H0 & H1).
  repeat split; assumption.
Qed.

(** The tasks of a call, in the order they are started. *)
Lemma interpolate_async_calls {double : Type} (K : @kernel_sem double)
    (points : list py_array) (values interp_points : py_array) (max_threads : Z) :
  let n := to_size_t (shape_at interp_points 0) in
  let w := num_threads n max_threads in
  let st := fst (interpolate K points values interp_points max_threads initial) in
  async_calls (trace st) = []
  \/ exists mk,
       async_calls (trace st) = map mk (indices w)
       /\ forall i, out_region (mk i) = chunk n w i.
Proof.
  cbv zeta.
  destruct (well_shaped points values interp_points) eqn:W.
  - rewrite (interpolate_accepts K _ _ _ _ initial W). cbv zeta.
    rewrite bind_ret_state.
    set (n := to_size_t (shape_at interp_points 0)).
    set (w := num_threads n max_threads).
    set (st1 := mkstate _ _).
    destruct (Z.eq_dec w 1) as [Ew | Nw].
    { left.
      destruct (run_kernels_direct K points values interp_points n w
                  (mkptr OutBuf 0) st1 (or_introl Ew)) as (c & -> & _).
      reflexivity. }
    destruct (Z_le_dec 1 (Z.of_nat (List.length points))) as [H1 | H1].
    2: { left.
      destruct (run_kernels_direct K points values interp_points n w
                  (mkptr OutBuf 0) st1) as (c & -> & _); [right; lia |].
      reflexivity. }
    destruct (Z_le_dec (Z.of_nat (List.length points)) 3) as [H3 | H3].
    2: { left.
      destruct (run_kernels_direct K points values interp_points n w
                  (mkptr OutBuf 0) st1) as (c & -> & _); [right; lia |].
      reflexivity. }
    right.
    destruct (run_kernels_async K points values interp_points n w
                (mkptr OutBuf 0) st1 Nw (conj H1 H3)) as (mk & -> & Hmk).
    exists mk. split.
    + simpl. rewrite async_calls_map. reflexivity.
    + intros i. destruct (Hmk i) as (-> & _). unfold chunk. cbn [off fst snd].
      rewrite Z.add_0_l. reflexivity.
  - left.
    destruct (interpolate_rejects K points values interp_points max_threads
                initial W) as (msg & -> & _).
    reflexivity.
Qed.

(** C7. In every call, two distinct workers are given parts of the output
    buffer that do not overlap: worker [i] is given the cells from
    [i * stride] on, as many as its chunk is long, inside the buffer, and the
    parts of workers [i] and [j] share no cell. *)
Theorem worker_regions_disjoint {double : Type} (K : @kernel_sem double)
    (points : list py_array) (values interp_points : py_array) (max_threads : Z)
    (i j : nat) (ci cj : kernel_call) :
  is_size_t max_threads ->
  let st := fst (interpolate K points values interp_points max_threads initial) in
  let num_elements := to_size_t (shape_at interp_points 0) in
  let stride := num_elements / num_threads num_elements max_threads in
  nth_error (async_calls (trace st)) i = Some ci ->
  nth_error (async_calls (trace st)) j = Some cj ->
  i <> j ->
  fst (out_region ci) = Z.of_nat i * stride
  /\ fst (out_region cj) = Z.of_nat j * stride
  /\ 0 <= fst (out_region ci)
  /\ fst (out_region ci) + snd (out_region ci) <= num_elements
  /\ disjoint (out_region ci) (out_region cj).
Proof.
  intros Hmt. cbv zeta. intros Hi Hj Hij.
  pose proof (to_size_t_range (shape_at interp_points 0)) as Hn.
  pose proof (num_threads_range (to_size_t (shape_at interp_points 0))
                max_threads (proj1 Hmt)) as Hw.
  destruct (interpolate_async_calls K points values interp_points max_threads)
    as [E | (mk & E & Hmk)]; cbv zeta in E; rewrite E in Hi, Hj.
  { exfalso. exact (nth_error_nil_some _ _ Hi). }
  rewrite nth_error_map in Hi, Hj.
  destruct (nth_error (indices _) i) as [zi |] eqn:Ei; [| discriminate].
  destruct (nth_error (indices _) j) as [zj |] eqn:Ej; [| discriminate].
  injection Hi as <-. injection Hj as <-.
  apply nth_error_indices in Ei, Ej.
  destruct Ei as [-> Ri], Ej as [-> Rj].
  rewrite !Hmk.
  set (n := to_size_t (shape_at interp_points 0)) in *.
  set (w := num_threads n max_threads) in *.
  destruct (chunk_exact n w (Z.of_nat i)) as (-> & Hi0 & Hi1); [assumption | lia | lia |].
  destruct (chunk_exact n w (Z.of_nat j)) as (-> & Hj0 & Hj1); [assumption | lia | lia |].
  unfold disjoint. simpl.
  destruct (stride_times_threads n w) as [Hs _]; [apply Hn | lia |].
  repeat split; try lia.
  assert (Hc : (i < j)%nat \/ (j < i)%nat) by lia.
  destruct Hc as [Hlt | Hlt]; [left | right]; nia.
Qed.

(** ** The empty query batch *)

(** C9. A well-shaped call with no query point uses one worker, calls one
    kernel in the calling thread with an output slice of length 0, starts no
    task and returns an array of shape (0,), as long as the kernel returns
    normally when it is given nothing to do. *)
Theorem empty_batch {double : Type} (K : @kernel_sem double)
    (points : list py_array) (values interp_points : py_array) (max_threads : Z) :
  (forall c m, snd (out_region c) = 0 -> snd (K c m) = None) ->
  is_size_t max_threads ->
  well_shaped points values interp_points = true ->
  shape_at interp_points 0 = 0 ->
  num_threads 0 max_threads = 1
  /\ exists c m,
       interpolate K points values interp_points max_threads initial
       = (mkstate [EvAlloc 0; EvDirect c] m,
          inr (mkresult [0] [sizeof_double] (mkptr OutBuf 0)
                 (free_when_done (mkptr OutBuf 0))))
       /\ out_region c = (0, 0).
Proof.
  intros HK Hmt W H0.
  assert (Hw : num_threads 0 max_threads = 1).
  { unfold num_threads. change (desired_threads 0) with 1.
    destruct Hmt as [Hmt _].
    destruct (Z.eqb_spec (Z.min 1 max_threads) 0); lia. }
  split; [exact Hw |].
  rewrite (interpolate_accepts K _ _ _ _ initial W). cbv zeta.
  rewrite H0. change (to_size_t 0) with 0. rewrite Hw.
  destruct (run_kernels_direct K points values interp_points 0 1 (mkptr OutBuf 0)
              (mkstate (trace (@initial double) ++ [EvAlloc 0]) (fun _ => None))
              (or_introl eq_refl)) as (c & E & Hc & _).
  exists c. eexists. split; [| exact Hc].
  unfold bind. rewrite E. unfold call_kernel. cbv zeta.
  rewrite HK by (rewrite Hc; reflexivity).
  reflexivity.
Qed.

(** ** Witnesses *)

Lemma ill_shaped_is_rejected_witness :
  shape_ok (query_batch 5 1)
  /\ ill_shaped one_axis (mkarray [3; 3] 2%nat) (query_batch 5 1) = true
  /\ exists msg,
       interpolate kernel_index one_axis (mkarray [3; 3] 2%nat) (query_batch 5 1)
         8 initial
       = (initial, inl (type_error msg))
       /\ msg <> "".
Proof.
  assert (Hok : shape_ok (query_batch 5 1)).
  { unfold shape_ok, query_batch. simpl.
    repeat (constructor; [lia |]). constructor. }
  split; [exact Hok |]. split; [reflexivity |].
  apply (ill_shaped_is_rejected kernel_index one_axis (mkarray [3; 3] 2%nat)
           (query_batch 5 1) 8 initial Hok).
  reflexivity.
Defined.

Lemma worker_regions_disjoint_witness :
  is_size_t 8
  /\ nth_error
       (async_calls
          (trace (fst (interpolate kernel_index one_axis one_axis_values
                         (query_batch 10000 1) 8 initial)))) 0
     = Some first_half
  /\ nth_error
       (async_calls
          (trace (fst (interpolate kernel_index one_axis one_axis_values
                         (query_batch 10000 1) 8 initial)))) 1
     = Some second_half
  /\ fst (out_region first_half) = 0
  /\ fst (out_region second_half) = 5000
  /\ disjoint (out_region first_half) (out_region second_half).
Proof.
  assert (H8 : is_size_t 8) by (unfold is_size_t, size_t_modulus; lia).
  split; [exact H8 |]. split; [reflexivity |]. split; [reflexivity |].
  destruct (worker_regions_disjoint kernel_index one_axis one_axis_values
              (query_batch 10000 1) 8 0 1 first_half second_half H8)
    as (H1 & H2 & _ & _ & Hd).
  - reflexivity.
  - reflexivity.
  - discriminate.
  - split; [exact H1 |]. split; [exact H2 | exact Hd].
Defined.

Lemma empty_batch_witness :
  num_threads 0 8 = 1
  /\ exists c m,
       interpolate kernel_index one_axis one_axis_values (query_batch 0 1) 8 initial
       = (mkstate [EvAlloc 0; EvDirect c] m,
          inr (mkresult [0] [sizeof_double] (mkptr OutBuf 0)
                 (free_when_done (mkptr OutBuf 0))))
       /\ out_region c = (0, 0).
Proof.
  apply (empty_batch kernel_index one_axis one_axis_values (query_batch 0 1) 8).
  - intros c m _. destruct c; reflexivity.
  - unfold is_size_t, size_t_modulus. lia.
  - reflexivity.
  - reflexivity.
Defined.

(** ** Where the dispatch falls short *)

(** When [num_elements] is not a multiple of the number of workers, the last
    chunk is as long as the others and ends before the end of the buffer:
    the test [index + stride < num_elements] still holds for it. *)
Lemma last_chunk_misses_remainder (n w : Z) :
  is_size_t n -> 0 < w -> n mod w <> 0 ->
  snd (chunk n w (w - 1)) = n / w
  /\ snd (chunk n w (w - 1)) < n - (n / w) * (w - 1)
  /\ fst (chunk n w (w - 1)) + snd (chunk n w (w - 1)) < n.
Proof.
  intros Hn Hw Hr.
  destruct (chunk_exact n w (w - 1)) as (-> & _ & _); [assumption | lia | lia |].
  simpl.
  pose proof (Z.div_mod n w ltac:(lia)) as Hdm.
  pose proof (Z.mod_pos_bound n w Hw) as Hm.
  repeat split; nia.
Qed.

(** X6. Several workers on at most three axes: the call returns normally
    whatever the kernels do, so an exception raised in a task never reaches
    the caller. *)
Lemma multi_thread_call_returns {double : Type} (K : @kernel_sem double)
    (points : list py_array) (values interp_points : py_array) (max_threads : Z) :
  well_shaped points values interp_points = true ->
  num_threads (to_size_t (shape_at interp_points 0)) max_threads <> 1 ->
  1 <= Z.of_nat (List.length points) <= 3 ->
  exists r,
    snd (interpolate K points values interp_points max_threads initial) = inr r.
Proof.
  intros W Hw HD.
  rewrite (interpolate_accepts K _ _ _ _ initial W). cbv zeta.
  match goal with
  | |- context [run_kernels K ?p ?v ?q ?n ?w ?o] =>
      destruct (run_kernels_async K p v q n w o
                  (mkstate (trace (@initial double) ++ [EvAlloc n]) (fun _ => None))
                  Hw HD) as (mk & E & _)
  end.
  unfold bind. rewrite E. eexists. reflexivity.
Qed.

(** C1. On 10001 query points with the default [max_threads] the dispatch
    uses two workers with [stride = 5000]; both chunks have 5000 points, where
    the last one should have [10001 - 5000 * (2 - 1) = 5001], and no chunk
    holds index 10000. *)
Theorem last_chunk_drops_remainder {double : Type} (K : @kernel_sem double) :
  let st := fst (interpolate_py K one_axis one_axis_values (query_batch 10001 1)
                   None initial) in
  num_threads 10001 default_max_threads = 2
  /\ size_div 10001 2 = 5000
  /\ map out_region (async_calls (trace st)) = [(0, 5000); (5000, 5000)]
  /\ 10001 - 5000 * (2 - 1) = 5001
  /\ forallb (fun r => negb ((fst r <=? 10000) && (10000 <? fst r + snd r)))
       (map out_region (async_calls (trace st))) = true.
Proof.
  cbv zeta. repeat split; vm_compute; reflexivity.
Qed.

(** C2. On 10001 query points along one axis, the cell of index 10000 of
    the output holds the interpolated value when [max_threads] is 1 and is
    never written when [max_threads] is 2, 4 or 8. *)
Theorem output_depends_on_max_threads {double : Type} (pv : Z -> double)
    (nd : list slice -> slice -> slice -> slice -> @out_mem double -> out_mem) :
  let run mt :=
    out (fst (interpolate (kernel_model pv nd) one_axis one_axis_values
                (query_batch 10001 1) mt initial)) in
  run 1 10000 = Some (pv 10000)
  /\ run 2 10000 = None
  /\ run 4 10000 = None
  /\ run 8 10000 = None
  /\ run 1 9999 = run 8 9999.
Proof.
  cbv zeta. repeat split; vm_compute; reflexivity.
Qed.

(** C4. With two workers that both end with an exception the call returns
    its array as if nothing had happened; the same kernels in the calling
    thread make the call fail. *)
Theorem worker_exception_is_dropped {double : Type} (what : string) :
  let failing := @kernel_failing double what in
  let parallel :=
    interpolate failing one_axis one_axis_values (query_batch 10000 1) 8 initial in
  let single :=
    interpolate failing one_axis one_axis_values (query_batch 10 1) 8 initial in
  async_calls (trace (fst parallel)) = [first_half; second_half]
  /\ snd (failing first_half (fun _ => None)) = Some (kernel_error what)
  /\ snd (failing second_half (fun _ => None)) = Some (kernel_error what)
  /\ snd parallel
     = inr (mkresult [10000] [sizeof_double] (mkptr OutBuf 0)
              (free_when_done (mkptr OutBuf 0)))
  /\ snd single = inl (kernel_error what).
Proof.
  cbv zeta. repeat split; vm_compute; reflexivity.
Qed.

(** C5. With four axes of two points, sixteen values and one query point
    of four coordinates, the generic kernel is given the four axes and an
    output slice of length 1, but a slice of length 2 for the sixteen values
    and a slice of length 2 for the four query coordinates. *)
Theorem generic_slices_have_wrong_lengths {double : Type} (K : @kernel_sem double) :
  let st := fst (interpolate K four_axes four_axes_values (query_batch 1 4) 8
                   initial) in
  direct_calls (trace st)
  = [interpolate_generic
       [mkslice 2 (mkptr (ArrBuf 1) 0); mkslice 2 (mkptr (ArrBuf 2) 0);
        mkslice 2 (mkptr (ArrBuf 3) 0); mkslice 2 (mkptr (ArrBuf 4) 0)]
       (mkslice 2 (mkptr (ArrBuf 5) 0))
       (mkslice 2 (mkptr (ArrBuf 9) 0))
       (mkslice 1 (mkptr OutBuf 0))]
  /\ size four_axes_values = 16
  /\ size (query_batch 1 4) = 4.
Proof.
  cbv zeta. split; [| split; reflexivity].
  rewrite (interpolate_accepts K four_axes four_axes_values (query_batch 1 4) 8
             initial eq_refl).
  cbv zeta. rewrite bind_ret_state. vm_compute. reflexivity.
Qed.

(** C8. On 10001 query points along one axis the call returns an array of
    shape (10001,) on the block it allocated, owned by the capsule, but the
    cell of index 10000 was never written: the last query point has no
    interpolated value. *)
Theorem returned_array_has_unwritten_cell {double : Type} (pv : Z -> double)
    (nd : list slice -> slice -> slice -> slice -> @out_mem double -> out_mem) :
  let call :=
    interpolate_py (kernel_model pv nd) one_axis one_axis_values
      (query_batch 10001 1) None initial in
  snd call
  = inr (mkresult [10001] [sizeof_double] (mkptr OutBuf 0)
           (free_when_done (mkptr OutBuf 0)))
  /\ nth_error (trace (fst call)) 0 = Some (EvAlloc 10001)
  /\ out (fst call) 0 = Some (pv 0)
  /\ out (fst call) 9999 = Some (pv 9999)
  /\ out (fst call) 10000 = None.
Proof.
  cbv zeta. repeat split; vm_compute; reflexivity.
Qed.

(** ** What the returned array holds

    With the kernels of the model, the cells a call writes are those below
    [threads * stride], each with the value of the query point of the same
    index; the [num_elements mod threads] cells after them are left as
    allocated. *)

Section Output.

Context {double : Type}.
Variable pv : Z -> double.
Variable nd :
  list slice -> slice -> slice -> slice -> @out_mem double -> @out_mem double.






End Output.

(** * Further properties of the binding *)

(** ** The two ways a well-shaped call runs *)

Lemma in_indices (w i : Z) : In i (indices w) <-> 0 <= i < w.
Proof.
  unfold indices. rewrite in_map_iff. split.
  - intros (k & <- & Hk). apply in_seq in Hk. lia.
  - intros Hi. exists (Z.to_nat i). split; [lia |]. apply in_seq. lia.
Qed.

Lemma length_indices (w : Z) : List.length (indices w) = Z.to_nat w.
Proof. unfold indices. rewrite length_map, length_seq. reflexivity. Qed.

Lemma dims_cases (D : Z) : 1 <= D <= 3 \/ ~ (1 <= D <= 3).
Proof. lia. Qed.

Lemma dispatch_cases (w D : Z) :
  (w = 1 \/ ~ (1 <= D <= 3)) \/ (w <> 1 /\ 1 <= D <= 3).
Proof. destruct (Z.eq_dec w 1); lia. Qed.

Section Runs.

Context {double : Type}.
Variable K : @kernel_sem double.

Lemma run_kernels_generic (points : list py_array) (values interp_points : py_array)
    (n w : Z) (st : @state double) :
  ~ (1 <= Z.of_nat (List.length points) <= 3) ->
  run_kernels K points values interp_points n w (mkptr OutBuf 0) st
  = call_kernel K (generic_call points values interp_points n) st.
Proof.
  intros HD. unfold run_kernels.
  destruct (Z.eqb_spec (Z.of_nat (List.length points)) 1); [lia |].
  destruct (Z.eqb_spec (Z.of_nat (List.length points)) 2); [lia |].
  destruct (Z.eqb_spec (Z.of_nat (List.length points)) 3); [lia |].
  reflexivity.
Qed.

(** One worker, or more than three axes: the block is allocated, one kernel
    runs in the calling thread and its outcome is the outcome of the call. *)
Lemma interpolate_direct (points : list py_array) (values interp_points : py_array)
    (max_threads : Z) (st : @state double) :
  let n := to_size_t (shape_at interp_points 0) in
  let w := num_threads n max_threads in
  well_shaped points values interp_points = true ->
  w = 1 \/ ~ (1 <= Z.of_nat (List.length points) <= 3) ->
  exists c,
    interpolate K points values interp_points max_threads st
    = (mkstate (trace st ++ [EvAlloc n; EvDirect c]) (fst (K c (fun _ => None))),
       match snd (K c (fun _ => None)) with
       | None => inr (returned_array n)
       | Some e => inl e
       end)
    /\ out_region c = (0, n)
    /\ (~ (1 <= Z.of_nat (List.length points) <= 3) ->
        c = generic_call points values interp_points n).
Proof.
  cbv zeta. intros W Hc.
  rewrite (interpolate_accepts K _ _ _ _ st W). cbv zeta.
  set (n := to_size_t (shape_at interp_points 0)).
  set (w := num_threads n max_threads) in *.
  set (st1 := mkstate _ _).
  destruct (run_kernels_direct K points values interp_points n w (mkptr OutBuf 0)
              st1 Hc) as (c & E & Hr & _).
  destruct (dims_cases (Z.of_nat (List.length points))) as [HD | HD].
  - exists c. split; [| split; [exact Hr | intros HD'; contradiction]].
    unfold bind. rewrite E. unfold call_kernel, st1. cbv zeta. cbn [trace out].
    rewrite <- app_assoc. cbn [app].
    destruct (snd (K c (fun _ => None))); reflexivity.
  - exists (generic_call points values interp_points n).
    split; [| split; [reflexivity | reflexivity]].
    unfold bind. rewrite (run_kernels_generic _ _ _ _ _ _ HD).
    unfold call_kernel, st1. cbv zeta. cbn [trace out].
    rewrite <- app_assoc. cbn [app].
    destruct (snd (K _ (fun _ => None))); reflexivity.
Qed.

(** Several workers on at most three axes: the block is allocated, one task
    per worker is started, and the call returns its array. *)
Lemma interpolate_async (points : list py_array) (values interp_points : py_array)
    (max_threads : Z) (st : @state double) :
  let n := to_size_t (shape_at interp_points 0) in
  let w := num_threads n max_threads in
  let D := Z.of_nat (List.length points) in
  well_shaped points values interp_points = true ->
  w <> 1 -> 1 <= D <= 3 ->
  exists mk,
    interpolate K points values interp_points max_threads st
    = (mkstate (trace st ++ EvAlloc n :: map (fun i => EvAsync (mk i)) (indices w))
         (run_tasks K mk (indices w) (fun _ => None)),
       inr (returned_array n))
    /\ forall i,
         out_region (mk i) = chunk n w i
         /\ is_fixed (mk i) = true
         /\ call_dims (mk i) = D
         /\ interp_start (mk i) = to_size_t (fst (chunk n w i) * D).
Proof.
  cbv zeta. intros W Hw HD.
  rewrite (interpolate_accepts K _ _ _ _ st W). cbv zeta.
  set (n := to_size_t (shape_at interp_points 0)).
  set (w := num_threads n max_threads) in *.
  set (st1 := mkstate _ _).
  destruct (run_kernels_async K points values interp_points n w (mkptr OutBuf 0)
              st1 Hw HD) as (mk & E & Hmk).
  exists mk. split.
  - unfold bind. rewrite E. unfold st1. cbn [trace out].
    rewrite <- app_assoc. reflexivity.
  - intros i. destruct (Hmk i) as (Hr & Hrest). split; [| exact Hrest].
    rewrite Hr. unfold chunk. cbn [off fst snd]. rewrite Z.add_0_l. reflexivity.
Qed.

End Runs.

(** ** The tasks of a parallel call *)

Lemma multi_worker_batch (n mt : Z) :
  is_size_t mt -> num_threads n mt <> 1 ->
  2 <= num_threads n mt <= 8 /\ 10000 <= n /\ 1250 <= n / num_threads n mt.
Proof.
  intros Hmt Hw.
  pose proof (num_threads_range n mt (proj1 Hmt)) as Hr.
  assert (Hn : 10000 <= n).
  { unfold num_threads, desired_threads in Hw.
    destruct (Z.ltb_spec n 10000) as [Hlt | Hge]; [| exact Hge].
    exfalso. apply Hw. destruct Hmt as [Hmt _].
    destruct (Z.eqb_spec (Z.min 1 mt) 0); lia. }
  split; [lia |]. split; [exact Hn |].
  apply Z.div_le_lower_bound; lia.
Qed.

(** The tasks of a call, with their number and their regions. *)
Lemma async_calls_tasks {double : Type} (K : @kernel_sem double)
    (points : list py_array) (values interp_points : py_array) (max_threads : Z) :
  let n := to_size_t (shape_at interp_points 0) in
  let w := num_threads n max_threads in
  let D := Z.of_nat (List.length points) in
  let st := fst (interpolate K points values interp_points max_threads initial) in
  async_calls (trace st) <> [] ->
  w <> 1 /\ 1 <= D <= 3
  /\ exists mk,
       async_calls (trace st) = map mk (indices w)
       /\ forall i,
            out_region (mk i) = chunk n w i
            /\ is_fixed (mk i) = true
            /\ call_dims (mk i) = D
            /\ interp_start (mk i) = to_size_t (fst (chunk n w i) * D).
Proof.
  cbv zeta. intros Hne.
  destruct (well_shaped points values interp_points) eqn:W.
  2: { exfalso. apply Hne.
       destruct (interpolate_rejects K points values interp_points max_threads
                   initial W) as (msg & -> & _).
       reflexivity. }
  destruct (dispatch_cases (num_threads (to_size_t (shape_at interp_points 0))
                              max_threads) (Z.of_nat (List.length points)))
    as [Hc | [Hw HD]].
  - exfalso. apply Hne.
    destruct (interpolate_direct K points values interp_points max_threads
                initial W Hc) as (c & -> & _).
    reflexivity.
  - split; [exact Hw |]. split; [exact HD |].
    destruct (interpolate_async K points values interp_points max_threads
                initial W Hw HD) as (mk & -> & Hmk).
    exists mk. split; [| exact Hmk].
    cbn [fst trace initial app async_calls flat_map].
    apply async_calls_map.
Qed.

(** X1. In a call that starts tasks there are at least 10000 query points
    and between 2 and 8 tasks, as many as there are workers; task [i] is given
    exactly [stride] output cells from [i * stride] on, never fewer than 1250,
    and the unsigned arithmetic that finds them does not wrap around. *)
Theorem tasks_have_stride_points {double : Type} (K : @kernel_sem double)
    (points : list py_array) (values interp_points : py_array) (max_threads : Z)
    (i : nat) (c : kernel_call) :
  let n := to_size_t (shape_at interp_points 0) in
  let w := num_threads n max_threads in
  let st := fst (interpolate K points values interp_points max_threads initial) in
  is_size_t max_threads ->
  nth_error (async_calls (trace st)) i = Some c ->
  List.length (async_calls (trace st)) = Z.to_nat w
  /\ 2 <= w <= 8
  /\ 10000 <= n
  /\ out_region c = (Z.of_nat i * (n / w), n / w)
  /\ 1250 <= n / w.
Proof.
  cbv zeta. intros Hmt Hi.
  destruct (async_calls_tasks K points values interp_points max_threads)
    as (Hw & _ & mk & E & Hmk).
  { intros E. cbv zeta in E. rewrite E in Hi. exact (nth_error_nil_some _ _ Hi). }
  cbv zeta in E. rewrite E in Hi |- *.
  destruct (multi_worker_batch _ _ Hmt Hw) as (Hr & Hn & Hs).
  rewrite length_map, length_indices.
  rewrite nth_error_map in Hi.
  destruct (nth_error (indices _) i) as [z |] eqn:Ez; [| discriminate].
  injection Hi as <-. apply nth_error_indices in Ez. destruct Ez as [-> Rz].
  destruct (Hmk (Z.of_nat i)) as (-> & _).
  destruct (chunk_exact (to_size_t (shape_at interp_points 0))
              (num_threads (to_size_t (shape_at interp_points 0)) max_threads)
              (Z.of_nat i)) as (-> & _);
    [apply to_size_t_range | lia | exact Rz |].
  repeat split; try lia.
Qed.

(** X2. In a call that starts tasks, the output cells given to some task
    are exactly those below [num_elements - num_elements mod threads]: the
    last [num_elements mod threads] query points, at most 7, are given to no
    task. *)
Theorem dispatched_points {double : Type} (K : @kernel_sem double)
    (points : list py_array) (values interp_points : py_array) (max_threads j : Z) :
  let n := to_size_t (shape_at interp_points 0) in
  let w := num_threads n max_threads in
  let st := fst (interpolate K points values interp_points max_threads initial) in
  is_size_t max_threads ->
  async_calls (trace st) <> [] ->
  0 <= n mod w <= 7
  /\ ((exists c, In c (async_calls (trace st)) /\ in_region c j)
      <-> 0 <= j < n - n mod w).
Proof.
  cbv zeta. intros Hmt Hne.
  destruct (async_calls_tasks K points values interp_points max_threads Hne)
    as (Hw & _ & mk & E & Hmk).
  cbv zeta in E. rewrite E.
  set (n := to_size_t (shape_at interp_points 0)) in *.
  set (w := num_threads n max_threads) in *.
  destruct (multi_worker_batch n max_threads Hmt Hw) as (Hr & Hn & Hs).
  fold w in Hr, Hs.
  pose proof (to_size_t_range (shape_at interp_points 0)) as Hnr. fold n in Hnr.
  pose proof (Z.div_mod n w ltac:(lia)) as Hdm.
  pose proof (Z.mod_pos_bound n w ltac:(lia)) as Hm.
  split; [lia |].
  assert (Hreg : forall i, 0 <= i < w ->
            out_region (mk i) = (i * (n / w), n / w)).
  { intros i Hi. destruct (Hmk i) as (-> & _).
    destruct (chunk_exact n w i Hnr ltac:(lia) Hi) as (-> & _). reflexivity. }
  unfold in_region. split.
  - intros (c & Hin & Hj). apply in_map_iff in Hin.
    destruct Hin as (i & <- & Hi). apply in_indices in Hi.
    rewrite (Hreg i Hi) in Hj. cbn [fst snd] in Hj. nia.
  - intros Hj. exists (mk (j / (n / w))).
    assert (Hq : 0 <= j / (n / w) < w).
    { split; [apply Z.div_pos; lia |].
      apply Z.div_lt_upper_bound; nia. }
    split.
    + apply in_map. apply in_indices. exact Hq.
    + rewrite (Hreg _ Hq). cbn [fst snd].
      pose proof (Z.div_mod j (n / w) ltac:(lia)) as Hjm.
      pose proof (Z.mod_pos_bound j (n / w) ltac:(lia)) as Hjb.
      nia.
Qed.

(** X3. Every task is given the part of the query batch that matches its
    part of the output: its kernel takes as many coordinates per point as
    there are axes, and its query pointer starts at the first output index of
    the task times that number, as long as the query batch has fewer than
    2^64 coordinates. *)
Theorem query_slice_follows_output_slice {double : Type} (K : @kernel_sem double)
    (points : list py_array) (values interp_points : py_array) (max_threads : Z)
    (c : kernel_call) :
  let n := to_size_t (shape_at interp_points 0) in
  let D := Z.of_nat (List.length points) in
  let st := fst (interpolate K points values interp_points max_threads initial) in
  is_size_t max_threads ->
  is_size_t (n * D) ->
  In c (async_calls (trace st)) ->
  is_fixed c = true
  /\ call_dims c = D
  /\ interp_start c = fst (out_region c) * D.
Proof.
  cbv zeta. intros Hmt HnD Hin.
  destruct (async_calls_tasks K points values interp_points max_threads)
    as (Hw & HD & mk & E & Hmk).
  { intros E. cbv zeta in E. rewrite E in Hin. exact Hin. }
  cbv zeta in E. rewrite E in Hin.
  apply in_map_iff in Hin. destruct Hin as (i & <- & Hi). apply in_indices in Hi.
  set (n := to_size_t (shape_at interp_points 0)) in *.
  set (w := num_threads n max_threads) in *.
  destruct (multi_worker_batch n max_threads Hmt Hw) as (Hr & Hn & Hs).
  fold w in Hr, Hs.
  pose proof (to_size_t_range (shape_at interp_points 0)) as Hnr. fold n in Hnr.
  destruct (Hmk i) as (Hreg & Hf & Hd & Hq).
  destruct (chunk_exact n w i Hnr ltac:(lia) Hi) as (Hc & Hlo & Hhi).
  rewrite Hc in Hreg, Hq. cbn [fst] in Hq.
  split; [exact Hf |]. split; [exact Hd |].
  rewrite Hq, Hreg. cbn [fst].
  apply to_size_t_small. unfold is_size_t in *. nia.
Qed.

(** ** Calls that run one kernel in the calling thread *)

(** X4. With more than three axes a well-shaped call never starts a task,
    whatever the thread budget and the size of the batch: after the
    allocation it calls the generic kernel once, with one slice per axis in
    order, the whole output block, and a values slice and a query slice that
    both have the number of values divided by 8 as their length. *)
Theorem generic_path_is_sequential {double : Type} (K : @kernel_sem double)
    (points : list py_array) (values interp_points : py_array) (max_threads : Z) :
  let n := to_size_t (shape_at interp_points 0) in
  well_shaped points values interp_points = true ->
  3 < Z.of_nat (List.length points) ->
  trace (fst (interpolate K points values interp_points max_threads initial))
  = [EvAlloc n; EvDirect (generic_call points values interp_points n)].
Proof.
  cbv zeta. intros W HD.
  destruct (interpolate_direct K points values interp_points max_threads
              initial W) as (c & -> & _ & Hc); [right; lia |].
  rewrite Hc by lia. reflexivity.
Qed.

(** X5. When a well-shaped call runs on one worker, or on more than three
    axes, it allocates the block and calls one kernel on all of it; an
    exception of that kernel is the outcome of the call, and no array is
    built over the block that was allocated. *)
Theorem direct_exception_propagates {double : Type} (K : @kernel_sem double)
    (points : list py_array) (values interp_points : py_array) (max_threads : Z) :
  let n := to_size_t (shape_at interp_points 0) in
  let call := interpolate K points values interp_points max_threads initial in
  well_shaped points values interp_points = true ->
  num_threads n max_threads = 1 \/ 3 < Z.of_nat (List.length points) ->
  exists c,
    trace (fst call) = [EvAlloc n; EvDirect c]
    /\ out_region c = (0, n)
    /\ (forall e, snd (K c (fun _ => None)) = Some e -> snd call = inl e)
    /\ (snd (K c (fun _ => None)) = None -> snd call = inr (returned_array n)).
Proof.
  cbv zeta. intros W Hc.
  destruct (interpolate_direct K points values interp_points max_threads
              initial W) as (c & -> & Hr & _); [destruct Hc; [left | right]; lia |].
  exists c. cbn [fst snd trace initial app].
  split; [reflexivity |]. split; [exact Hr |].
  split; [intros e -> | intros ->]; reflexivity.
Qed.

(** ** The number of workers *)

(** X7. For a thread budget that is a [size_t], the number of workers is
    between 1 and 8, never above the desired number, never above a budget of
    at least 1, equal to the desired number for a budget of 8 or more, and
    it is 1 exactly when there are fewer than 10000 query points or the
    budget is 0 or 1. *)
Theorem num_threads_within_budget (num_elements max_threads : Z) :
  is_size_t max_threads ->
  let w := num_threads num_elements max_threads in
  1 <= w <= 8
  /\ w <= desired_threads num_elements
  /\ (1 <= max_threads -> w <= max_threads)
  /\ (8 <= max_threads -> w = desired_threads num_elements)
  /\ (w = 1 <-> num_elements < 10000 \/ max_threads <= 1).
Proof.
  intros [Hmt _]. cbv zeta.
  pose proof (desired_threads_range num_elements) as Hd.
  assert (Hd1 : desired_threads num_elements = 1 <-> num_elements < 10000).
  { unfold desired_threads.
    destruct (Z.ltb_spec num_elements 10000); [lia |].
    destruct (num_elements <? 4000000); [lia |].
    destruct (num_elements <? 160000000); lia. }
  unfold num_threads.
  destruct (Z.eqb_spec (Z.min (desired_threads num_elements) max_threads) 0);
    repeat split; intros; lia.
Qed.

Lemma desired_threads_monotone (n1 n2 : Z) :
  n1 <= n2 -> desired_threads n1 <= desired_threads n2.
Proof.
  intros H. unfold desired_threads.
  destruct (Z.ltb_spec n1 10000), (Z.ltb_spec n2 10000),
    (Z.ltb_spec n1 4000000), (Z.ltb_spec n2 4000000),
    (Z.ltb_spec n1 160000000), (Z.ltb_spec n2 160000000); lia.
Qed.

(** X8. More query points or a larger thread budget never give fewer
    workers. *)
Theorem num_threads_monotone (n1 n2 mt1 mt2 : Z) :
  is_size_t mt1 -> n1 <= n2 -> mt1 <= mt2 ->
  num_threads n1 mt1 <= num_threads n2 mt2.
Proof.
  intros [Hmt _] Hn Hm.
  pose proof (desired_threads_monotone n1 n2 Hn) as Hd.
  pose proof (desired_threads_range n1) as H1.
  pose proof (desired_threads_range n2) as H2.
  unfold num_threads.
  destruct (Z.eqb_spec (Z.min (desired_threads n1) mt1) 0),
    (Z.eqb_spec (Z.min (desired_threads n2) mt2) 0); lia.
Qed.

(** ** What the checks read *)

Lemma forallb_map_ndim (points : list py_array) :
  forallb (fun arr => ndim arr =? 1) points
  = forallb (fun d => d =? 1) (map ndim points).
Proof.
  induction points as [| a points IH]; simpl; [reflexivity | now rewrite IH].
Qed.

Lemma check_arguments_ranks {double : Type} (points points' : list py_array)
    (values values' interp_points interp_points' : py_array) (st : @state double) :
  map ndim points = map ndim points' ->
  ndim values = ndim values' ->
  ndim interp_points = ndim interp_points' ->
  shape_at interp_points 1 = shape_at interp_points' 1 ->
  check_arguments points values interp_points st
  = check_arguments points' values' interp_points' st.
Proof.
  intros Hp Hv Hq Hc.
  assert (Hl : List.length points = List.length points').
  { rewrite <- (length_map ndim points), Hp. apply length_map. }
  unfold check_arguments, bind. rewrite Hv, Hq, Hc, Hl.
  destruct (ndim values' =? 0); [reflexivity |].
  destruct (ndim interp_points' =? 0); [reflexivity |].
  cbn [orb when ret].
  rewrite !for_each_axis_check, !forallb_map_ndim, Hp.
  reflexivity.
Qed.

Lemma accepted_trace_grows {double : Type} (K : @kernel_sem double)
    (points : list py_array) (values interp_points : py_array)
    (max_threads : Z) (st : @state double) :
  well_shaped points values interp_points = true ->
  exists evs,
    trace (fst (interpolate K points values interp_points max_threads st))
    = trace st ++ EvAlloc (to_size_t (shape_at interp_points 0)) :: evs.
Proof.
  intros W.
  destruct (dispatch_cases (num_threads (to_size_t (shape_at interp_points 0))
                              max_threads) (Z.of_nat (List.length points)))
    as [Hc | [Hw HD]].
  - destruct (interpolate_direct K points values interp_points max_threads
                st W Hc) as (c & -> & _).
    eexists. reflexivity.
  - destruct (interpolate_async K points values interp_points max_threads
                st W Hw HD) as (mk & -> & _).
    eexists. reflexivity.
Qed.

(** X9. The checks read the ranks of the arrays and the number of columns
    of the query batch, nothing else: a call that is rejected stays rejected,
    with the same message, when the extents of the axes and of the values,
    the number of query points, the kernels and the thread budget change. *)
Theorem checks_read_ranks_only {double : Type} (K K' : @kernel_sem double)
    (points points' : list py_array)
    (values values' interp_points interp_points' : py_array)
    (max_threads max_threads' : Z) (st : state) (msg : string) :
  map ndim points = map ndim points' ->
  ndim values = ndim values' ->
  ndim interp_points = ndim interp_points' ->
  shape_at interp_points 1 = shape_at interp_points' 1 ->
  interpolate K points values interp_points max_threads st
  = (st, inl (type_error msg)) ->
  interpolate K' points' values' interp_points' max_threads' st
  = (st, inl (type_error msg)).
Proof.
  intros Hp Hv Hq Hc H.
  destruct (well_shaped points values interp_points) eqn:W.
  - exfalso.
    destruct (accepted_trace_grows K points values interp_points max_threads st W)
      as (evs & E).
    rewrite H in E. cbn [fst] in E.
    apply (f_equal (@List.length event)) in E.
    rewrite length_app in E. cbn [List.length] in E. lia.
  - destruct (check_arguments_rejects points values interp_points st W)
      as (msg0 & E & _).
    assert (Hm : msg0 = msg).
    { unfold interpolate, bind in H. rewrite E in H. congruence. }
    subst msg0.
    unfold interpolate, bind.
    rewrite <- (check_arguments_ranks points points' values values'
                  interp_points interp_points' st Hp Hv Hq Hc), E.
    reflexivity.
Qed.

Lemma existsb_alloc_async (mk : Z -> kernel_call) (l : list Z) :
  existsb is_alloc (map (fun i => EvAsync (mk i)) l) = false.
Proof. induction l as [| i l IH]; simpl; [reflexivity | exact IH]. Qed.

(** X10. A call that is not ill-shaped is never stopped by the checks: it
    allocates one block of as many cells as the query batch has rows, before
    anything else and only once, and then runs one kernel or as many tasks as
    there are workers. *)
Theorem accepted_call_allocates_first {double : Type} (K : @kernel_sem double)
    (points : list py_array) (values interp_points : py_array) (max_threads : Z) :
  let w := num_threads (shape_at interp_points 0) max_threads in
  shape_ok interp_points ->
  is_size_t max_threads ->
  ill_shaped points values interp_points = false ->
  exists evs,
    trace (fst (interpolate K points values interp_points max_threads initial))
    = EvAlloc (shape_at interp_points 0) :: evs
    /\ existsb is_alloc evs = false
    /\ (List.length evs = 1%nat \/ List.length evs = Z.to_nat w)
    /\ evs <> [].
Proof.
  cbv zeta. intros Hok Hmt Hill.
  assert (W : well_shaped points values interp_points = true).
  { rewrite (well_shaped_not_ill_shaped _ _ _ Hok), Hill. reflexivity. }
  rewrite <- (shape_at_size_t interp_points 0 Hok).
  destruct (dispatch_cases (num_threads (to_size_t (shape_at interp_points 0))
                              max_threads) (Z.of_nat (List.length points)))
    as [Hc | [Hw HD]].
  - destruct (interpolate_direct K points values interp_points max_threads
                initial W Hc) as (c & -> & _).
    eexists. split; [reflexivity |]. split; [reflexivity |].
    split; [left; reflexivity | discriminate].
  - destruct (interpolate_async K points values interp_points max_threads
                initial W Hw HD) as (mk & -> & _).
    eexists. split; [reflexivity |]. split; [apply existsb_alloc_async |].
    pose proof (num_threads_range (to_size_t (shape_at interp_points 0))
                  max_threads (proj1 Hmt)) as Hr.
    assert (Hlen : List.length
                     (map (fun i => EvAsync (mk i))
                        (indices (num_threads (to_size_t (shape_at interp_points 0))
                                    max_threads)))
                   = Z.to_nat (num_threads (to_size_t (shape_at interp_points 0))
                                 max_threads)).
    { rewrite length_map. apply length_indices. }
    split; [right; exact Hlen |].
    intros E. rewrite E in Hlen. cbn [List.length] in Hlen. lia.
Qed.

(** X11. Whenever a call returns an array, its arguments passed every
    check, and the array has one dimension with as many entries as the query
    batch has rows, a stride of 8 bytes, the block allocated by this call as
    its data and the capsule that frees that block as its owner. *)
Theorem result_has_query_rows {double : Type} (K : @kernel_sem double)
    (points : list py_array) (values interp_points : py_array)
    (max_threads : Z) (st : state) (r : py_result) :
  snd (interpolate K points values interp_points max_threads st) = inr r ->
  well_shaped points values interp_points = true
  /\ r = returned_array (to_size_t (shape_at interp_points 0)).
Proof.
  intros H.
  destruct (well_shaped points values interp_points) eqn:W.
  2: { destruct (interpolate_rejects K points values interp_points max_threads
                   st W) as (msg & E & _).
       rewrite E in H. discriminate. }
  split; [reflexivity |].
  destruct (dispatch_cases (num_threads (to_size_t (shape_at interp_points 0))
                              max_threads) (Z.of_nat (List.length points)))
    as [Hc | [Hw HD]].
  - destruct (interpolate_direct K points values interp_points max_threads
                st W Hc) as (c & E & _).
    rewrite E in H. cbn [snd] in H.
    destruct (snd (K c (fun _ => None))); [discriminate | congruence].
  - destruct (interpolate_async K points values interp_points max_threads
                st W Hw HD) as (mk & E & _).
    rewrite E in H. cbn [snd] in H. congruence.
Qed.


(** ** Witnesses of the further properties *)

Lemma size_t_8 : is_size_t 8.
Proof. unfold is_size_t, size_t_modulus. lia. Qed.

Lemma tasks_have_stride_points_witness :
  nth_error
    (async_calls
       (trace (fst (interpolate kernel_index one_axis one_axis_values
                      (query_batch 10001 1) 8 initial)))) 1
  = Some second_half
  /\ out_region second_half = (5000, 5000).
Proof.
  split; [reflexivity |].
  apply (tasks_have_stride_points kernel_index one_axis one_axis_values
           (query_batch 10001 1) 8 1 second_half size_t_8 eq_refl).
Defined.

Lemma dispatched_points_witness :
  async_calls
    (trace (fst (interpolate kernel_index one_axis one_axis_values
                   (query_batch 10001 1) 8 initial))) <> []
  /\ ((exists c,
         In c (async_calls
                 (trace (fst (interpolate kernel_index one_axis one_axis_values
                                (query_batch 10001 1) 8 initial))))
         /\ in_region c 9999)
      <-> 0 <= 9999 < 10001 - 10001 mod 2).
Proof.
  assert (Hne : async_calls
                  (trace (fst (interpolate kernel_index one_axis one_axis_values
                                 (query_batch 10001 1) 8 initial))) <> [])
    by (vm_compute; discriminate).
  split; [exact Hne |].
  apply (dispatched_points kernel_index one_axis one_axis_values
           (query_batch 10001 1) 8 9999 size_t_8 Hne).
Defined.

Lemma query_slice_follows_output_slice_witness :
  In second_half_2d
    (async_calls
       (trace (fst (interpolate kernel_index two_axes two_axes_values
                      (query_batch 10000 2) 8 initial))))
  /\ interp_start second_half_2d = fst (out_region second_half_2d) * 2.
Proof.
  assert (Hin : In second_half_2d
                  (async_calls
                     (trace (fst (interpolate kernel_index two_axes two_axes_values
                                    (query_batch 10000 2) 8 initial)))))
    by (vm_compute; right; left; reflexivity).
  split; [exact Hin |].
  apply (query_slice_follows_output_slice kernel_index two_axes two_axes_values
           (query_batch 10000 2) 8 second_half_2d size_t_8).
  - unfold is_size_t, size_t_modulus. vm_compute. split; [discriminate | reflexivity].
  - exact Hin.
Defined.

Lemma generic_path_is_sequential_witness :
  trace (fst (interpolate kernel_index four_axes four_axes_values
                (query_batch 20000 4) 8 initial))
  = [EvAlloc 20000;
     EvDirect (generic_call four_axes four_axes_values (query_batch 20000 4) 20000)].
Proof.
  apply (generic_path_is_sequential kernel_index four_axes four_axes_values
           (query_batch 20000 4) 8).
  - reflexivity.
  - simpl. lia.
Defined.

Lemma direct_exception_propagates_witness :
  exists c,
    trace (fst (interpolate (@kernel_failing Z "boom") one_axis one_axis_values
                  (query_batch 10 1) 8 initial))
    = [EvAlloc 10; EvDirect c]
    /\ out_region c = (0, 10)
    /\ snd (interpolate (@kernel_failing Z "boom") one_axis one_axis_values
              (query_batch 10 1) 8 initial)
       = inl (kernel_error "boom").
Proof.
  destruct (direct_exception_propagates (@kernel_failing Z "boom") one_axis
              one_axis_values (query_batch 10 1) 8 eq_refl (or_introl eq_refl))
    as (c & Ht & Hr & He & _).
  exists c. split; [exact Ht |]. split; [exact Hr |].
  apply He. reflexivity.
Defined.

Lemma multi_thread_call_returns_witness :
  exists r,
    snd (interpolate (@kernel_failing Z "boom") one_axis one_axis_values
           (query_batch 10000 1) 8 initial)
    = inr r.
Proof.
  apply (multi_thread_call_returns (@kernel_failing Z "boom") one_axis
           one_axis_values (query_batch 10000 1) 8).
  - reflexivity.
  - vm_compute. discriminate.
  - simpl. lia.
Defined.

Lemma num_threads_within_budget_witness :
  num_threads 5000000 3 = 3
  /\ 1 <= num_threads 5000000 3 <= 8
  /\ num_threads 5000000 3 <= desired_threads 5000000.
Proof.
  split; [reflexivity |].
  assert (H3 : is_size_t 3) by (unfold is_size_t, size_t_modulus; lia).
  destruct (num_threads_within_budget 5000000 3 H3) as (Hr & Hd & _).
  split; [exact Hr | exact Hd].
Defined.

Lemma num_threads_monotone_witness :
  num_threads 9999 0 <= num_threads 200000000 8.
Proof.
  apply (num_threads_monotone 9999 200000000 0 8).
  - unfold is_size_t, size_t_modulus. lia.
  - lia.
  - lia.
Defined.

Lemma checks_read_ranks_only_witness :
  interpolate (@kernel_failing Z "boom") [mkarray [7] 4%nat] (mkarray [2; 9] 6%nat)
    (mkarray [100; 1] 7%nat) 0 initial
  = (initial, inl (type_error "Dimension mismatch! Grid is 1D but values are 2D!")).
Proof.
  apply (checks_read_ranks_only kernel_index (@kernel_failing Z "boom")
           one_axis [mkarray [7] 4%nat]
           (mkarray [3; 3] 2%nat) (mkarray [2; 9] 6%nat)
           (query_batch 5 1) (mkarray [100; 1] 7%nat) 8 0 initial);
    reflexivity.
Defined.

Lemma accepted_call_allocates_first_witness :
  ill_shaped one_axis one_axis_values (query_batch 10000 1) = false
  /\ exists evs,
       trace (fst (interpolate kernel_index one_axis one_axis_values
                     (query_batch 10000 1) 8 initial))
       = EvAlloc 10000 :: evs
       /\ existsb is_alloc evs = false.
Proof.
  split; [reflexivity |].
  assert (Hok : shape_ok (query_batch 10000 1)).
  { unfold shape_ok, query_batch. simpl.
    repeat (constructor; [lia |]). constructor. }
  destruct (accepted_call_allocates_first kernel_index one_axis one_axis_values
              (query_batch 10000 1) 8 Hok size_t_8 eq_refl)
    as (evs & Ht & Ha & _).
  exists evs. split; [exact Ht | exact Ha].
Defined.

Lemma result_has_query_rows_witness :
  snd (interpolate kernel_index one_axis one_axis_values (query_batch 10 1) 8 initial)
  = inr (returned_array 10)
  /\ well_shaped one_axis one_axis_values (query_batch 10 1) = true.
Proof.
  split; [reflexivity |].
  apply (result_has_query_rows kernel_index one_axis one_axis_values
           (query_batch 10 1) 8 initial (returned_array 10) eq_refl).
Defined.


